(** * zabbix_api: the dispatch shim of [plugins/modules/zabbix_api.py]

    A shallow embedding of class [API] ([_is_method], [call]) and of [main],
    together with the parts of the Python runtime they rely on: [re] for the
    one pattern the module compiles, [str.split], tuple unpacking, local
    variable binding, [try]/[except Exception], and the two terminating
    reports of [AnsibleModule] ([exit_json], [fail_json]). *)

From Stdlib Require Import Strings.String Strings.Ascii Lists.List Bool.Bool.
From Stdlib Require Import Arith.PeanoNat ZArith.ZArith micromega.Lia.
From Stdlib Require Import Numbers.DecimalString.
Import ListNotations.
Open Scope string_scope.

Set Warnings "-register-all".

(** ** Python values *)

(** The values a task can hand to the module and the remote API can hand
    back: JSON-like data.  A [str] is the sequence of its characters. *)
Inductive value : Type :=
| VNone
| VBool (b : bool)
| VInt (z : Z)
| VStr (s : string)
| VList (l : list value)
| VDict (d : list (string * value)).

(** [isinstance(v, str)] *)
Definition isinstance_str (v : value) : bool :=
  match v with VStr _ => true | _ => false end.

(** ** The fragment of [re] used by the module *)

Module Re.

(** Pattern items: [^], [$], an escaped literal, and [[lo-hi]+]. *)
Inductive atom : Type :=
| Bol
| Eol
| Lit (c : ascii)
| Plus (lo hi : ascii).

Definition regex := list atom.

Definition in_range (lo hi c : ascii) : bool :=
  Nat.leb (nat_of_ascii lo) (nat_of_ascii c)
  && Nat.leb (nat_of_ascii c) (nat_of_ascii hi).

Definition newline : ascii := ascii_of_nat 10.

(** Without [re.MULTILINE], [$] holds at the end of the string and also
    just before a newline that is the last character of the string. *)
Definition at_eol (s : string) : bool :=
  match s with
  | EmptyString => true
  | String c EmptyString => Ascii.eqb c newline
  | _ => false
  end.

(** One or more characters satisfying [p], longest first, then [k] on the
    rest; backtracks to shorter runs. *)
Fixpoint match_plus (p : ascii -> bool) (k : string -> bool) (s : string) : bool :=
  match s with
  | EmptyString => false
  | String c s' => p c && (match_plus p k s' || k s')
  end.

(** Match [re] at the current position; [bol] tells whether that position
    is the start of the string. *)
Fixpoint match_here (re : regex) (bol : bool) (s : string) {struct re} : bool :=
  match re with
  | [] => true
  | Bol :: re' => bol && match_here re' bol s
  | Eol :: re' => at_eol s && match_here re' bol s
  | Lit c :: re' =>
      match s with
      | EmptyString => false
      | String c' s' => Ascii.eqb c' c && match_here re' false s'
      end
  | Plus lo hi :: re' => match_plus (in_range lo hi) (match_here re' false) s
  end.

(** [pattern.search(s)] scanning from offset [i]: the offset of the
    leftmost match, or [None]. *)
Fixpoint search_from (re : regex) (i : nat) (s : string) : option nat :=
  if match_here re (Nat.eqb i 0) s then Some i
  else match s with
       | EmptyString => None
       | String _ s' => search_from re (S i) s'
       end.

Definition search (re : regex) (s : string) : option nat := search_from re 0 s.

End Re.

(** [re.compile(r"^[a-z]+\.[a-z]+$")] *)
Definition pattern : Re.regex :=
  [Re.Bol; Re.Plus "a" "z"; Re.Lit "."; Re.Plus "a" "z"; Re.Eol]%char.

(** ** [str.split] with a one-character separator *)

Fixpoint split (sep : ascii) (s : string) : list string :=
  match s with
  | EmptyString => [EmptyString]
  | String c s' =>
      if Ascii.eqb c sep then EmptyString :: split sep s'
      else match split sep s' with
           | [] => [String c EmptyString]
           | h :: t => String c h :: t
           end
  end.

(** ** Exceptions, reports and the remote handle *)

(** A raised exception: its class name, the text [str(e)] yields, and
    whether it is an instance of [Exception].  [KeyboardInterrupt],
    [SystemExit] and [GeneratorExit] derive from [BaseException] only.  The
    [SystemExit] that [exit_json] and [fail_json] raise themselves is the
    [SysExit] outcome below. *)
Record exn : Type :=
  mkExn { exn_class : string; exn_str : string; isinstance_Exception : bool }.

(** [str(e)], as the [%s] conversion applies it. *)
Definition str (e : exn) : string := exn_str e.

(** What the interpreter raises when a local name is read before any
    assignment bound it (wording of CPython 3.11 and later). *)
Definition UnboundLocalError (name : string) : exn :=
  mkExn "UnboundLocalError"
        ("cannot access local variable '" ++ name
           ++ "' where it is not associated with a value")
        true.

Definition ValueError (msg : string) : exn := mkExn "ValueError" msg true.

Definition KeyboardInterrupt : exn := mkExn "KeyboardInterrupt" "" false.

(** The JSON document the module prints before the process exits:
    [exit_json] with its keyword arguments, or [fail_json] with its [msg]
    (the framework adds [failed: true]). *)
Inductive report : Type :=
| ExitJson (kwargs : list (string * value))
| FailJson (msg : string).

(** The remote-API handle [self._zapi]: attribute lookup by name gives a
    sub-handle, attribute lookup on that gives an operation, and an operation
    takes one argument; each step returns or raises. *)
Definition operation := value -> exn + value.
Definition subhandle := string -> exn + operation.
Definition handle := string -> exn + subhandle.

(** What [call] does to the handle, in order, each with the exception it
    raised, if any. *)
Inductive request : Type :=
| GetObject (name : string)
| GetMethod (name : string)
| Invoke (params : value).

Record event : Type := Ev { ev_req : request; ev_raised : option exn }.

Definition is_invoke (ev : event) : bool :=
  match ev_req ev with Invoke _ => true | _ => false end.

(** ** Control flow: return, raise, or exit the process *)

Inductive outcome (A : Type) : Type :=
| Return (a : A)
| Raise (e : exn)
| SysExit (r : report).
Arguments Return {A} a.
Arguments Raise {A} e.
Arguments SysExit {A} r.

(** A computation extends the log of remote interactions and ends in an
    outcome. *)
Definition M (A : Type) : Type := list event -> list event * outcome A.

Definition ret {A} (a : A) : M A := fun t => (t, Return a).

Definition raise {A} (e : exn) : M A := fun t => (t, Raise e).

Definition bind {A B} (m : M A) (k : A -> M B) : M B :=
  fun t =>
    match m t with
    | (t', Return a) => k a t'
    | (t', Raise e) => (t', Raise e)
    | (t', SysExit r) => (t', SysExit r)
    end.

Notation "x <- m ;; k" := (bind m (fun x => k))
  (at level 61, m at next level, right associativity).
Notation "m ;;; k" := (bind m (fun _ => k))
  (at level 61, right associativity).

(** [try: body except Exception as e: handler(e)].  The handler takes a
    raised instance of [Exception]; any other exception keeps propagating,
    and so does [SysExit]. *)
Definition try_except {A} (body : M A) (handler : exn -> M A) : M A :=
  fun t =>
    match body t with
    | (t', Raise e) =>
        if isinstance_Exception e then handler e t' else (t', Raise e)
    | r => r
    end.

(** Run a computation from an empty log. *)
Definition run {A} (m : M A) : list event * outcome A := m [].

(** Perform one step on the remote handle and log it. *)
Definition remote {A} (req : request) (r : exn + A) : M A :=
  fun t =>
    match r with
    | inl e => ((t ++ [Ev req (Some e)])%list, Raise e)
    | inr a => ((t ++ [Ev req None])%list, Return a)
    end.

(** ** [AnsibleModule] *)

(** The module object: the check-mode flag of the run and the [params]
    dictionary the framework built from the task's arguments. *)
Record AnsibleModule : Type :=
  mkModule { check_mode : bool; params : list (string * value) }.

Definition exit_json {A} (kwargs : list (string * value)) : M A :=
  fun t => (t, SysExit (ExitJson kwargs)).

Definition fail_json {A} (msg : string) : M A :=
  fun t => (t, SysExit (FailJson msg)).

(** Dictionary lookup [d[key]]. *)
Fixpoint dict_get (d : list (string * value)) (key : string) : option value :=
  match d with
  | [] => None
  | (k, v) :: d' => if String.eqb k key then Some v else dict_get d' key
  end.

Definition getitem (d : list (string * value)) (key : string) : M value :=
  match dict_get d key with
  | Some v => ret v
  | None => raise (mkExn "KeyError" ("'" ++ key ++ "'") true)
  end.

(** One entry of an argument spec: [dict(type=..., required=...)]. *)
Record option_spec : Type := mkSpec { opt_type : string; opt_required : bool }.

(** How the framework fills [module.params] from the arguments of a task
    whose values already have the declared types and which names declared
    options only: a supplied option keeps its value, a missing required
    option ends the run with a failure, and a missing optional one that
    declares no default is set to [None].  The conversion of values to the
    declared types and the refusal of undeclared options, which the
    framework performs first, are not part of this model. *)
Fixpoint load_params (spec : list (string * option_spec))
         (args : list (string * value)) : M (list (string * value)) :=
  match spec with
  | [] => ret []
  | (name, o) :: spec' =>
      v <- match dict_get args name with
           | Some v => ret v
           | None =>
               if opt_required o
               then fail_json ("missing required arguments: " ++ name)
               else ret VNone
           end ;;
      rest <- load_params spec' args ;;
      ret ((name, v) :: rest)
  end.

(** ** Local variables and tuple unpacking *)

(** The two locals of [call] that only one branch assigns. *)
Record locals : Type :=
  mkLocals { target_object : option string; target_method : option string }.

Definition unbound : locals := mkLocals None None.

(** Reading a local name. *)
Definition load_name (name : string) (slot : option string) : M string :=
  match slot with
  | Some v => ret v
  | None => raise (UnboundLocalError name)
  end.

Definition decimal (n : nat) : string := NilEmpty.string_of_uint (Nat.to_uint n).

(** [target_object, target_method = parts]: the sequence must have exactly
    two items, otherwise [ValueError] and nothing is bound. *)
Definition unpack2 (parts : list string) : M locals :=
  match parts with
  | [a; b] => ret (mkLocals (Some a) (Some b))
  | _ :: _ :: _ :: _ => raise (ValueError "too many values to unpack (expected 2)")
  | _ =>
      raise (ValueError ("not enough values to unpack (expected 2, got "
                           ++ decimal (length parts) ++ ")"))
  end.

(** ** class [API] *)

Record API : Type := mkAPI { _module : AnsibleModule; _zapi : handle }.

Definition _is_method (self : API) (method : string) : M bool :=
  let search_result := Re.search pattern method in
  match search_result with
  | None => fail_json (method ++ " is invalid value.")
  | Some _ => ret tt
  end ;;;
  ret true.

(** The default of the [params] argument of [call], used by a caller that
    leaves the argument out. *)
Definition params_default : value := VDict [].

Definition call (self : API) (method : value) (params : value) : M unit :=
  try_except
    (vars <- (if isinstance_str method
              then match method with
                   | VStr s =>
                       ok <- _is_method self s ;;
                       if ok then unpack2 (split "." s) else ret unbound
                   | _ => ret unbound
                   end
              else ret unbound) ;;
     (if check_mode (_module self)
      then exit_json [("changed", VBool true)]
      else ret tt) ;;;
     name <- load_name "target_object" (target_object vars) ;;
     apireq <- remote (GetObject name) (_zapi self name) ;;
     name' <- load_name "target_method" (target_method vars) ;;
     apimethod <- remote (GetMethod name') (apireq name') ;;
     res <- remote (Invoke params) (apimethod params) ;;
     exit_json [("changed", VBool true); ("result", res)])
    (fun e => fail_json ("Failed to call api: " ++ str e)).

(** ** [main] *)

(** The options [main] adds to the common argument spec. *)
Definition argument_spec : list (string * option_spec) :=
  [("method", mkSpec "str" true); ("params", mkSpec "dict" false)].

(** [main], given the task's arguments, the check-mode flag of the run and
    the handle the base class opens for the module.  The constructor
    inherited from [ZabbixBase] is taken to have returned that handle; what
    it does on the way is not part of this model. *)
Definition main (args : list (string * value)) (check : bool) (zapi : handle)
  : M unit :=
  loaded <- load_params argument_spec args ;;
  let module := mkModule check loaded in
  method <- getitem (params module) "method" ;;
  params <- getitem (params module) "params" ;;
  let api := mkAPI module zapi in
  call api method params.

(** ** Method names as the specification describes them *)

Definition lower (c : ascii) : bool := Re.in_range "a" "z" c.

Fixpoint all_sat (p : ascii -> bool) (s : string) : bool :=
  match s with
  | EmptyString => true
  | String c s' => p c && all_sat p s'
  end.

Definition all_lower (s : string) : bool := all_sat lower s.

(** One or more lowercase ASCII letters. *)
Definition word (s : string) : bool :=
  match s with
  | EmptyString => false
  | _ => all_lower s
  end.

(** The exact form [<object>.<action>]. *)
Definition dotted (s : string) : Prop :=
  exists a b, word a = true /\ word b = true /\ s = a ++ "." ++ b.

Definition nl : string := String Re.newline EmptyString.

Definition not_dot (c : ascii) : bool := negb (Ascii.eqb c ".").

(** Characters a dotted name can hold. *)
Definition name_char (c : ascii) : bool := lower c || Ascii.eqb c ".".

(** [s.endswith(suffix)] *)
Fixpoint endswith (s suffix : string) : bool :=
  String.eqb s suffix
  || match s with
     | EmptyString => false
     | String _ s' => endswith s' suffix
     end.

(** Occurrences of a character in a string. *)
Fixpoint count_char (c : ascii) (s : string) : nat :=
  match s with
  | EmptyString => 0
  | String c' s' => (if Ascii.eqb c' c then 1 else 0) + count_char c s'
  end.

(** ** The reports and the remote steps of a run *)

Definition failed_to_call (e : exn) : report :=
  FailJson ("Failed to call api: " ++ str e).

(** How a run of [call] ends when a step in its [try] raised [e]. *)
Definition fault (e : exn) : outcome unit :=
  if isinstance_Exception e then SysExit (failed_to_call e) else Raise e.

Definition would_change : report := ExitJson [("changed", VBool true)].

(** What a live (not check mode) call does once the two names are known. *)
Definition live (zapi : handle) (a b : string) (params : value)
  : list event * outcome unit :=
  match zapi a with
  | inl e => ([Ev (GetObject a) (Some e)], fault e)
  | inr apireq =>
      match apireq b with
      | inl e => ([Ev (GetObject a) None; Ev (GetMethod b) (Some e)], fault e)
      | inr apimethod =>
          match apimethod params with
          | inl e => ([Ev (GetObject a) None; Ev (GetMethod b) None;
                       Ev (Invoke params) (Some e)],
                      fault e)
          | inr res => ([Ev (GetObject a) None; Ev (GetMethod b) None;
                         Ev (Invoke params) None],
                        SysExit (ExitJson [("changed", VBool true); ("result", res)]))
          end
      end
  end.

(** ** A sample remote API *)

(** [dashboard.get] answers with one dashboard; any other name is unknown. *)
Definition dashboards : value :=
  VDict [("result", VList [VDict [("dashboardid", VStr "1")]])].

Definition AttributeError (name : string) : exn :=
  mkExn "AttributeError" ("no attribute '" ++ name ++ "'") true.

Definition sample_zapi : handle :=
  fun object =>
    if String.eqb object "dashboard"
    then inr (fun method =>
                if String.eqb method "get"
                then inr (fun _ => inr dashboards)
                else inl (AttributeError method))
    else inl (AttributeError object).

Definition sample_api (check : bool) : API :=
  mkAPI (mkModule check []) sample_zapi.

Definition filter_x : value := VDict [("filter", VDict [("name", VStr "X")])].

(** A handle every step of which returns or raises an instance of
    [Exception]. *)
Definition only_Exceptions (zapi : handle) : Prop :=
  forall a,
    match zapi a with
    | inl e => isinstance_Exception e = true
    | inr apireq =>
        forall b,
          match apireq b with
          | inl e => isinstance_Exception e = true
          | inr apimethod =>
              forall p,
                match apimethod p with
                | inl e => isinstance_Exception e = true
                | inr _ => True
                end
          end
    end.

(** The sample API with one more operation: [dashboard.create] refuses its
    argument. *)
Definition invalid_params : exn := mkExn "Exception" "Invalid params." true.

Definition strict_zapi : handle :=
  fun object =>
    if String.eqb object "dashboard"
    then inr (fun method =>
                if String.eqb method "get"
                then inr (fun _ => inr dashboards)
                else if String.eqb method "create"
                     then inr (fun _ => inl invalid_params)
                     else inl (AttributeError method))
    else inl (AttributeError object).

(** A handle interrupted from the keyboard while it looks up an object, and
    one interrupted while its operation runs. *)
Definition interrupted_lookup : handle := fun _ => inl KeyboardInterrupt.

Definition interrupted_operation : handle :=
  fun _ => inr (fun _ => inr (fun _ => inl KeyboardInterrupt)).

(** ** The model on concrete inputs *)

Example search_ok : Re.search pattern "dashboard.get" = Some 0.
Proof. reflexivity. Qed.

Example search_upper : Re.search pattern "Foo.bar" = None.
Proof. reflexivity. Qed.

Example search_three : Re.search pattern "foo.bar.baz" = None.
Proof. reflexivity. Qed.

Example split_three : split "." "foo.bar.baz" = ["foo"; "bar"; "baz"].
Proof. reflexivity. Qed.

Example split_trailing : split "." "foo." = ["foo"; ""].
Proof. reflexivity. Qed.

(** ** Facts about the matcher *)

Section Matcher.

Variable p : ascii -> bool.
Variable k : string -> bool.

Lemma match_plus_sound (s : string) :
  Re.match_plus p k s = true ->
  exists a r, s = a ++ r /\ a <> "" /\ all_sat p a = true /\ k r = true.
Proof.
  induction s as [|c s IH]; simpl; [discriminate|].
  intros H. apply andb_true_iff in H as [Hc H].
  apply orb_true_iff in H as [H|H].
  - destruct (IH H) as (a & r & -> & _ & Ha & Hr).
    exists (String c a), r. simpl. rewrite Hc, Ha. repeat split; congruence.
  - exists (String c ""), s. simpl. rewrite Hc. repeat split; congruence.
Qed.

Lemma match_plus_complete (a r : string) :
  a <> "" -> all_sat p a = true -> k r = true ->
  Re.match_plus p k (a ++ r) = true.
Proof.
  induction a as [|c a IH]; [congruence|].
  intros _ Ha Hr. simpl in *. apply andb_true_iff in Ha as [Hc Ha].
  rewrite Hc. simpl. destruct a as [|c' a].
  - simpl. rewrite Hr. apply orb_true_r.
  - rewrite IH; [reflexivity|discriminate|assumption|assumption].
Qed.

End Matcher.

Lemma append_nil_r (s : string) : s ++ "" = s.
Proof. induction s as [|c s IH]; simpl; congruence. Qed.

Lemma word_spec (s : string) : word s = true <-> s <> "" /\ all_lower s = true.
Proof.
  unfold all_lower. destruct s; simpl; split; intros H; try discriminate.
  - destruct H; congruence.
  - split; [discriminate|assumption].
  - apply H.
Qed.

Lemma at_eol_spec (s : string) : Re.at_eol s = true <-> s = "" \/ s = nl.
Proof.
  unfold nl. destruct s as [|c [|c' s]]; simpl; split; intros H; auto;
    try discriminate.
  - right. apply Ascii.eqb_eq in H. congruence.
  - destruct H as [H|H]; [discriminate|]. injection H as ->. apply Ascii.eqb_refl.
  - destruct H as [H|H]; discriminate.
Qed.

(** The pattern can only match at offset 0. *)
Lemma search_from_later (i : nat) (s : string) :
  Re.search_from pattern (S i) s = None.
Proof.
  revert i. induction s as [|c s IH]; intros i; simpl; auto.
Qed.

Lemma search_is_match (s : string) :
  Re.search pattern s <> None <-> Re.match_here pattern true s = true.
Proof.
  unfold Re.search. destruct s as [|c s].
  - simpl. split; [congruence|discriminate].
  - cbn [Re.search_from Nat.eqb].
    destruct (Re.match_here pattern true (String c s)).
    + split; [reflexivity|discriminate].
    + rewrite search_from_later. split; [congruence|discriminate].
Qed.

(** What [pattern.search] accepts: the dotted form, possibly followed by one
    newline. *)
Lemma search_pattern_iff (s : string) :
  Re.search pattern s <> None <->
  exists a b, word a = true /\ word b = true /\
              (s = a ++ "." ++ b \/ s = a ++ "." ++ b ++ nl).
Proof.
  rewrite search_is_match. cbn [pattern Re.match_here andb]. split.
  - intros H. apply match_plus_sound in H as (a & r & -> & Ha & Hla & H).
    destruct r as [|c r]; [discriminate|].
    apply andb_true_iff in H as [Hc H]. apply Ascii.eqb_eq in Hc. subst c.
    apply match_plus_sound in H as (b & e & -> & Hb & Hlb & H).
    rewrite andb_true_r in H. apply at_eol_spec in H.
    exists a, b. repeat split; try (apply word_spec; auto).
    destruct H as [->| ->]; [left|right]; simpl; rewrite ?append_nil_r; reflexivity.
  - intros (a & b & Ha & Hb & Hs).
    apply word_spec in Ha as [Ha Hla]. apply word_spec in Hb as [Hb Hlb].
    assert (E : exists e, s = a ++ String "." (b ++ e) /\ Re.at_eol e = true).
    { destruct Hs as [->| ->]; [exists ""|exists nl]; simpl;
        rewrite ?append_nil_r; auto. }
    destruct E as (e & -> & He).
    apply match_plus_complete; auto.
    rewrite Ascii.eqb_refl. simpl.
    apply match_plus_complete; auto.
    now rewrite He.
Qed.

(** ** Facts about [split] *)

Lemma lower_not_dot (c : ascii) : lower c = true -> not_dot c = true.
Proof.
  intros H. unfold not_dot. destruct (Ascii.eqb_spec c "."); [|reflexivity].
  subst c. discriminate H.
Qed.

Lemma all_lower_not_dot (s : string) :
  all_lower s = true -> all_sat not_dot s = true.
Proof.
  unfold all_lower. induction s as [|c s IH]; simpl; [reflexivity|].
  intros H. apply andb_true_iff in H as [Hc H].
  now rewrite (lower_not_dot _ Hc), IH.
Qed.

Lemma all_sat_app (p : ascii -> bool) (a b : string) :
  all_sat p (a ++ b) = all_sat p a && all_sat p b.
Proof.
  induction a as [|c a IH]; simpl; [reflexivity|].
  now rewrite IH, andb_assoc.
Qed.

Lemma split_no_dot (s : string) : all_sat not_dot s = true -> split "." s = [s].
Proof.
  induction s as [|c s IH]; simpl; [reflexivity|].
  intros H. apply andb_true_iff in H as [Hc H]. unfold not_dot in Hc.
  apply negb_true_iff in Hc. now rewrite Hc, (IH H).
Qed.

Lemma split_at_dot (a r : string) :
  all_sat not_dot a = true -> split "." (a ++ String "." r) = a :: split "." r.
Proof.
  induction a as [|c a IH]; simpl; [reflexivity|].
  intros H. apply andb_true_iff in H as [Hc H]. unfold not_dot in Hc.
  apply negb_true_iff in Hc. now rewrite Hc, (IH H).
Qed.

(** A method name that passes the pattern splits into exactly two parts: the
    object, and the action with whatever newline followed it. *)
Lemma valid_split (s : string) :
  Re.search pattern s <> None ->
  exists a b e, word a = true /\ word b = true /\ (e = "" \/ e = nl) /\
                s = a ++ "." ++ b ++ e /\ split "." s = [a; b ++ e].
Proof.
  intros H. apply search_pattern_iff in H as (a & b & Ha & Hb & Hs).
  assert (E : exists e, (e = "" \/ e = nl) /\ s = a ++ "." ++ b ++ e).
  { destruct Hs as [->| ->]; [exists ""|exists nl]; rewrite ?append_nil_r; auto. }
  destruct E as (e & He & ->). exists a, b, e. repeat split; auto.
  apply word_spec in Ha as [_ Ha]. apply word_spec in Hb as [_ Hb].
  simpl. rewrite split_at_dot by now apply all_lower_not_dot.
  rewrite split_no_dot; [reflexivity|].
  rewrite all_sat_app, (all_lower_not_dot _ Hb).
  destruct He as [->| ->]; reflexivity.
Qed.

(** ** The paths through [call] *)

(** A string the pattern rejects: reported as invalid, handle untouched. *)
Lemma call_rejected (self : API) (s : string) (params : value) :
  Re.search pattern s = None ->
  run (call self (VStr s) params) = ([], SysExit (FailJson (s ++ " is invalid value."))).
Proof.
  intros H. unfold run, call, try_except, bind, _is_method, fail_json. simpl.
  now rewrite H.
Qed.

(** A string the pattern accepts, in check mode. *)
Lemma call_accepted_check (self : API) (s : string) (params : value) :
  Re.search pattern s <> None ->
  check_mode (_module self) = true ->
  run (call self (VStr s) params) = ([], SysExit would_change).
Proof.
  intros H Hc. destruct (valid_split s H) as (a & b & e & _ & _ & _ & _ & Hs).
  unfold run, call, try_except, bind, _is_method, fail_json, ret. simpl.
  destruct (Re.search pattern s); [|congruence].
  rewrite Hs, Hc. reflexivity.
Qed.

Lemma call_accepted_live (self : API) (s a b : string) (params : value) :
  Re.search pattern s <> None ->
  split "." s = [a; b] ->
  check_mode (_module self) = false ->
  run (call self (VStr s) params) = live (_zapi self) a b params.
Proof.
  intros H Hs Hc.
  unfold run, call, try_except, bind, _is_method, fail_json, ret, live, remote.
  simpl. destruct (Re.search pattern s); [|congruence].
  rewrite Hs, Hc. simpl.
  unfold fault.
  destruct (_zapi self a) as [e|apireq]; simpl;
    [now destruct (isinstance_Exception e)|].
  destruct (apireq b) as [e|apimethod]; simpl;
    [now destruct (isinstance_Exception e)|].
  destruct (apimethod params) as [e|res]; simpl;
    [now destruct (isinstance_Exception e)|reflexivity].
Qed.

(** A method value that is not a string. *)
Lemma call_not_str (self : API) (method params : value) :
  isinstance_str method = false ->
  run (call self method params) =
    ([], SysExit (if check_mode (_module self) then would_change
                  else failed_to_call (UnboundLocalError "target_object"))).
Proof.
  intros H. unfold run, call, try_except, bind. rewrite H. simpl.
  destruct (check_mode (_module self)); reflexivity.
Qed.

Lemma endswith_app (t suffix : string) : endswith (t ++ suffix) suffix = true.
Proof.
  induction t as [|c t IH]; simpl.
  - destruct suffix; simpl; [reflexivity|]. now rewrite Ascii.eqb_refl, String.eqb_refl.
  - rewrite IH. apply orb_true_r.
Qed.

(** Every run of [call] ends in one of these shapes. *)
Lemma call_cases (self : API) (method params : value) :
  let r := run (call self method params) in
  (exists rep, r = ([], SysExit rep)) \/
  (exists s a b, method = VStr s /\ Re.search pattern s <> None /\
                 split "." s = [a; b] /\ r = live (_zapi self) a b params).
Proof.
  cbv zeta. destruct (isinstance_str method) eqn:Hm.
  - destruct method as [| | |s| |]; try discriminate.
    destruct (Re.search pattern s) as [i|] eqn:Hs.
    + assert (Hv : Re.search pattern s <> None) by congruence.
      destruct (check_mode (_module self)) eqn:Hc.
      * left. eexists. now apply call_accepted_check.
      * right. destruct (valid_split s Hv) as (a & b & e & _ & _ & _ & _ & Hsp).
        exists s, a, (b ++ e). repeat split; auto.
        now apply call_accepted_live.
    + left. eexists. now apply call_rejected.
  - left. eexists. now apply call_not_str.
Qed.

(** ** The claims *)

(** C1: a method string that [pattern.search] rejects is reported with the
    message made of the string followed by " is invalid value.", whatever the
    check mode, and the remote handle is neither resolved against nor
    invoked (the log of remote interactions is empty). *)
Theorem invalid_method_reported (self : API) (s : string) (params : value) :
  Re.search pattern s = None ->
  run (call self (VStr s) params)
  = ([], SysExit (FailJson (s ++ " is invalid value."))).
Proof. apply call_rejected. Qed.

Lemma invalid_method_reported_witness :
  Re.search pattern "Foo.bar" = None /\
  run (call (sample_api false) (VStr "Foo.bar") params_default)
  = ([], SysExit (FailJson "Foo.bar is invalid value.")).
Proof.
  split; [reflexivity|].
  apply (invalid_method_reported (sample_api false) "Foo.bar" params_default).
  reflexivity.
Defined.

(** C2, as stated, fails: in check mode the string "Foo.bar" is still
    validated first and reported as invalid instead of a success. *)
Lemma check_mode_invalid_string_fails :
  check_mode (_module (sample_api true)) = true /\
  run (call (sample_api true) (VStr "Foo.bar") params_default)
  = ([], SysExit (FailJson "Foo.bar is invalid value.")) /\
  run (call (sample_api true) (VStr "Foo.bar") params_default)
  <> ([], SysExit (ExitJson [("changed", VBool true)])).
Proof. repeat split. discriminate. Qed.

(** C2, amended: in check mode, every method string the pattern accepts
    yields the report [changed: true] with no [result], and the remote handle
    is neither resolved against nor invoked. *)
Theorem check_mode_reports_changed (self : API) (s : string) (params : value) :
  check_mode (_module self) = true ->
  Re.search pattern s <> None ->
  run (call self (VStr s) params)
  = ([], SysExit (ExitJson [("changed", VBool true)])).
Proof. intros Hc Hs. now apply call_accepted_check. Qed.

Lemma check_mode_reports_changed_witness :
  check_mode (_module (sample_api true)) = true /\
  Re.search pattern "report.create" <> None /\
  run (call (sample_api true) (VStr "report.create") filter_x)
  = ([], SysExit (ExitJson [("changed", VBool true)])).
Proof.
  split; [reflexivity|]. split; [discriminate|].
  apply (check_mode_reports_changed (sample_api true) "report.create" filter_x).
  - reflexivity.
  - discriminate.
Defined.

Lemma live_reports (zapi : handle) (a b : string) (params : value) :
  only_Exceptions zapi -> exists rep, snd (live zapi a b params) = SysExit rep.
Proof.
  intros H. specialize (H a). unfold live, fault.
  destruct (zapi a) as [e|apireq]; simpl; [rewrite H; now eexists|].
  specialize (H b).
  destruct (apireq b) as [e|apimethod]; simpl; [rewrite H; now eexists|].
  specialize (H params).
  destruct (apimethod params) as [e|res]; simpl; [rewrite H|]; now eexists.
Qed.

Lemma sample_zapi_only_Exceptions : only_Exceptions sample_zapi.
Proof.
  intros a. unfold sample_zapi. destruct (String.eqb a "dashboard"); [|reflexivity].
  intros b. destruct (String.eqb b "get"); [|reflexivity].
  intros p. exact I.
Qed.

(** C3, as stated, fails: when the resolved operation is interrupted from the
    keyboard, the [KeyboardInterrupt] it raises is not an [Exception]; the
    handler of [call] does not take it and it leaves [call] with no report. *)
Lemma operation_interrupt_propagates :
  Re.search pattern "dashboard.get" <> None /\
  run (call (mkAPI (mkModule false []) interrupted_operation)
            (VStr "dashboard.get") filter_x)
  = ([Ev (GetObject "dashboard") None; Ev (GetMethod "get") None;
      Ev (Invoke filter_x) (Some KeyboardInterrupt)],
     Raise KeyboardInterrupt) /\
  snd (run (call (mkAPI (mkModule false []) interrupted_operation)
                 (VStr "dashboard.get") filter_x))
  <> SysExit (FailJson ("Failed to call api: " ++ str KeyboardInterrupt)).
Proof. split; [discriminate|]. split; [reflexivity|discriminate]. Qed.

(** C3, amended: for a method string the pattern accepts, with check mode
    off, when resolving the object on the handle, resolving the method on
    the sub-handle, or the resolved operation applied to [params] raises an
    instance [e] of [Exception], the run stops at that step and ends with the
    failure report "Failed to call api: " followed by [str(e)]; the
    exception does not leave [call]. *)
Theorem raised_Exception_reported
        (self : API) (s a b : string) (params : value) (e : exn) :
  Re.search pattern s <> None ->
  split "." s = [a; b] ->
  check_mode (_module self) = false ->
  isinstance_Exception e = true ->
  (_zapi self a = inl e ->
   run (call self (VStr s) params)
   = ([Ev (GetObject a) (Some e)],
      SysExit (FailJson ("Failed to call api: " ++ str e)))) /\
  (forall apireq,
      _zapi self a = inr apireq -> apireq b = inl e ->
      run (call self (VStr s) params)
      = ([Ev (GetObject a) None; Ev (GetMethod b) (Some e)],
         SysExit (FailJson ("Failed to call api: " ++ str e)))) /\
  (forall apireq apimethod,
      _zapi self a = inr apireq -> apireq b = inr apimethod ->
      apimethod params = inl e ->
      run (call self (VStr s) params)
      = ([Ev (GetObject a) None; Ev (GetMethod b) None;
          Ev (Invoke params) (Some e)],
         SysExit (FailJson ("Failed to call api: " ++ str e)))).
Proof.
  intros Hs Hsp Hc He.
  rewrite (call_accepted_live self s a b params Hs Hsp Hc).
  unfold live, fault. repeat split.
  - intros H1. now rewrite H1, He.
  - intros apireq H1 H2. now rewrite H1, H2, He.
  - intros apireq apimethod H1 H2 H3. now rewrite H1, H2, H3, He.
Qed.

Lemma raised_Exception_reported_witness :
  run (call (mkAPI (mkModule false []) strict_zapi) (VStr "host.get") filter_x)
  = ([Ev (GetObject "host") (Some (AttributeError "host"))],
     SysExit (FailJson "Failed to call api: no attribute 'host'")) /\
  run (call (mkAPI (mkModule false []) strict_zapi) (VStr "dashboard.update") filter_x)
  = ([Ev (GetObject "dashboard") None;
      Ev (GetMethod "update") (Some (AttributeError "update"))],
     SysExit (FailJson "Failed to call api: no attribute 'update'")) /\
  run (call (mkAPI (mkModule false []) strict_zapi) (VStr "dashboard.create") filter_x)
  = ([Ev (GetObject "dashboard") None; Ev (GetMethod "create") None;
      Ev (Invoke filter_x) (Some invalid_params)],
     SysExit (FailJson "Failed to call api: Invalid params.")).
Proof.
  split; [|split].
  - destruct (raised_Exception_reported
                (mkAPI (mkModule false []) strict_zapi)
                "host.get" "host" "get" filter_x (AttributeError "host"))
      as (P & _ & _);
      [discriminate|reflexivity|reflexivity|reflexivity|].
    apply P. reflexivity.
  - destruct (raised_Exception_reported
                (mkAPI (mkModule false []) strict_zapi)
                "dashboard.update" "dashboard" "update" filter_x
                (AttributeError "update"))
      as (_ & P & _);
      [discriminate|reflexivity|reflexivity|reflexivity|].
    eapply P; reflexivity.
  - destruct (raised_Exception_reported
                (mkAPI (mkModule false []) strict_zapi)
                "dashboard.create" "dashboard" "create" filter_x invalid_params)
      as (_ & _ & P);
      [discriminate|reflexivity|reflexivity|reflexivity|].
    eapply P; reflexivity.
Defined.

(** C4, at a task that gives only [method: dashboard.get]: [main] reads
    [None] for the missing [params] and passes it on, so the remote operation
    is invoked with [None]; the empty-mapping default of [call] is not
    used. *)
Theorem absent_params_invoke_with_None :
  run (main [("method", VStr "dashboard.get")] false sample_zapi)
  = ([Ev (GetObject "dashboard") None; Ev (GetMethod "get") None;
      Ev (Invoke VNone) None],
     SysExit (ExitJson [("changed", VBool true); ("result", dashboards)]))
  /\ VNone <> params_default.
Proof. split; [reflexivity|discriminate]. Qed.

Lemma dotted_name_chars (s : string) : dotted s -> all_sat name_char s = true.
Proof.
  assert (L : forall w, all_lower w = true -> all_sat name_char w = true).
  { unfold all_lower. induction w as [|c w IH]; simpl; [reflexivity|].
    intros H. apply andb_true_iff in H as [Hc H]. unfold name_char at 1.
    now rewrite Hc, IH. }
  intros (a & b & Ha & Hb & ->).
  apply word_spec in Ha as [_ Ha]. apply word_spec in Hb as [_ Hb].
  rewrite all_sat_app. simpl. now rewrite (L a Ha), (L b Hb).
Qed.

(** C5, at the method string "dashboard.get" followed by a newline: it is not
    of the form [<object>.<action>], yet [pattern.search] accepts it, and the
    call goes on to resolve "dashboard" and then "get" with the newline
    instead of reporting an invalid value. *)
Theorem trailing_newline_passes_validation :
  ~ dotted ("dashboard.get" ++ nl) /\
  Re.search pattern ("dashboard.get" ++ nl) = Some 0 /\
  run (call (sample_api false) (VStr ("dashboard.get" ++ nl)) params_default)
  = ([Ev (GetObject "dashboard") None;
      Ev (GetMethod ("get" ++ nl)) (Some (AttributeError ("get" ++ nl)))],
     SysExit (FailJson ("Failed to call api: no attribute 'get" ++ nl ++ "'"))).
Proof.
  split; [|split; reflexivity].
  intros H. apply dotted_name_chars in H. discriminate H.
Qed.

(** C6: with check mode off, a method string the pattern accepts, whose two
    parts resolve and whose operation returns [res] on [params], yields the
    report [changed: true, result: res], after exactly one resolution of
    each name and one invocation. *)
Theorem success_reports_raw_result
        (self : API) (s a b : string) (params res : value)
        (apireq : subhandle) (apimethod : operation) :
  Re.search pattern s <> None ->
  check_mode (_module self) = false ->
  split "." s = [a; b] ->
  _zapi self a = inr apireq ->
  apireq b = inr apimethod ->
  apimethod params = inr res ->
  run (call self (VStr s) params)
  = ([Ev (GetObject a) None; Ev (GetMethod b) None; Ev (Invoke params) None],
     SysExit (ExitJson [("changed", VBool true); ("result", res)])).
Proof.
  intros Hs Hc Hsp H1 H2 H3.
  rewrite (call_accepted_live self s a b params Hs Hsp Hc).
  unfold live. now rewrite H1, H2, H3.
Qed.

Lemma success_reports_raw_result_witness :
  run (call (sample_api false) (VStr "dashboard.get") filter_x)
  = ([Ev (GetObject "dashboard") None; Ev (GetMethod "get") None;
      Ev (Invoke filter_x) None],
     SysExit (ExitJson [("changed", VBool true); ("result", dashboards)])).
Proof.
  apply (success_reports_raw_result (sample_api false) "dashboard.get"
           "dashboard" "get" filter_x dashboards
           (fun method => if String.eqb method "get"
                          then inr (fun _ => inr dashboards)
                          else inl (AttributeError method))
           (fun _ => inr dashboards)).
  - discriminate.
  - reflexivity.
  - reflexivity.
  - reflexivity.
  - reflexivity.
  - reflexivity.
Defined.

(** C7, as stated, fails: in check mode the accepted string "dashboard.get"
    is split but neither name is resolved; the run ends before touching the
    handle. *)
Lemma check_mode_resolves_nothing :
  Re.search pattern "dashboard.get" <> None /\
  run (call (sample_api true) (VStr "dashboard.get") params_default)
  = ([], SysExit (ExitJson [("changed", VBool true)])).
Proof. split; [discriminate|reflexivity]. Qed.

(** C7, amended: a method string the pattern accepts splits on the dot into
    exactly two parts [a] and [b]; with check mode off, the first step on the
    remote handle resolves [a], and, when that resolution does not raise,
    the next step resolves [b] on the sub-handle it returned; when it raises
    nothing further is done on the handle. *)
Theorem split_then_resolve_in_order (s : string) :
  Re.search pattern s <> None ->
  exists a b,
    split "." s = [a; b] /\
    forall (self : API) (params : value),
      check_mode (_module self) = false ->
      match _zapi self a with
      | inl e =>
          fst (run (call self (VStr s) params)) = [Ev (GetObject a) (Some e)]
      | inr apireq =>
          exists r rest,
            fst (run (call self (VStr s) params))
            = Ev (GetObject a) None :: Ev (GetMethod b) r :: rest
            /\ (r = None <-> exists apimethod, apireq b = inr apimethod)
      end.
Proof.
  intros Hs. destruct (valid_split s Hs) as (a & b & x & _ & _ & _ & _ & Hsp).
  exists a, (b ++ x). split; [assumption|]. intros self params Hc.
  rewrite (call_accepted_live self s a (b ++ x) params Hs Hsp Hc). unfold live.
  destruct (_zapi self a) as [e|apireq]; [reflexivity|].
  destruct (apireq (b ++ x)) as [e|apimethod].
  - exists (Some e), []. split; [reflexivity|].
    split; [discriminate|]. intros [m Hm]. discriminate.
  - destruct (apimethod params) as [e|res]; eexists None, _;
      (split; [reflexivity|]); split; eauto.
Qed.

Lemma split_then_resolve_in_order_witness :
  Re.search pattern "dashboard.get" <> None /\
  exists a b,
    split "." "dashboard.get" = [a; b] /\
    forall (self : API) (params : value),
      check_mode (_module self) = false ->
      match _zapi self a with
      | inl e =>
          fst (run (call self (VStr "dashboard.get") params))
          = [Ev (GetObject a) (Some e)]
      | inr apireq =>
          exists r rest,
            fst (run (call self (VStr "dashboard.get") params))
            = Ev (GetObject a) None :: Ev (GetMethod b) r :: rest
            /\ (r = None <-> exists apimethod, apireq b = inr apimethod)
      end.
Proof.
  split; [discriminate|].
  apply (split_then_resolve_in_order "dashboard.get"). discriminate.
Defined.

(** C8, as stated, fails: when looking up the object on the handle is
    interrupted from the keyboard, [call] ends with neither report; the
    [KeyboardInterrupt] goes on to the caller. *)
Lemma lookup_interrupt_propagates :
  run (call (mkAPI (mkModule false []) interrupted_lookup)
            (VStr "dashboard.get") params_default)
  = ([Ev (GetObject "dashboard") (Some KeyboardInterrupt)],
     Raise KeyboardInterrupt) /\
  forall rep : report,
    snd (run (call (mkAPI (mkModule false []) interrupted_lookup)
                   (VStr "dashboard.get") params_default))
    <> SysExit rep.
Proof. split; [reflexivity|]. intros rep. discriminate. Qed.

(** C8, amended: whatever the method value, the params and the check mode,
    on a handle whose steps return or raise an instance of [Exception], a
    run of [call] ends in a report, [exit_json] or [fail_json]; it never
    returns without one and lets no exception out. *)
Theorem call_reports_on_Exceptions (self : API) (method params : value) :
  only_Exceptions (_zapi self) ->
  exists rep : report, snd (run (call self method params)) = SysExit rep.
Proof.
  intros Hz.
  destruct (call_cases self method params) as [[rep H]|(s & a & b & _ & _ & _ & H)];
    rewrite H.
  - now exists rep.
  - now apply live_reports.
Qed.

Lemma call_reports_on_Exceptions_witness :
  only_Exceptions (_zapi (sample_api false)) /\
  exists rep : report,
    snd (run (call (sample_api false) (VStr "host.get") filter_x)) = SysExit rep.
Proof.
  split; [exact sample_zapi_only_Exceptions|].
  apply (call_reports_on_Exceptions (sample_api false) (VStr "host.get") filter_x).
  exact sample_zapi_only_Exceptions.
Defined.

(** C9: in every run of [call] the log of remote interactions holds at most
    one invocation, and an invocation in it carries exactly the [params]
    given to [call]. *)
Theorem at_most_one_invocation (self : API) (method params : value) :
  length (filter is_invoke (fst (run (call self method params)))) <= 1 /\
  forall (p : value) (r : option exn),
    In (Ev (Invoke p) r) (fst (run (call self method params))) -> p = params.
Proof.
  destruct (call_cases self method params) as [[rep H]|(s & a & b & _ & _ & _ & H)];
    rewrite H.
  - simpl. split; [lia|]. intros p r [].
  - unfold live. destruct (_zapi self a) as [e|apireq].
    { simpl. split; [lia|]. intros p r [E|[]]. discriminate E. }
    destruct (apireq b) as [e|apimethod].
    { simpl. split; [lia|]. intros p r [E|[E|[]]]; discriminate E. }
    destruct (apimethod params); simpl; (split; [lia|]);
      intros p r [E|[E|[E|[]]]]; try discriminate E; now inversion E.
Qed.

(** C10: a method value that is not a string is not validated: in check mode
    the run reports [changed: true]; otherwise reading the unbound
    [target_object] raises, the report is the failure
    "Failed to call api: " followed by that error's text, and this message is
    not of the form "... is invalid value."; in both cases the handle is
    untouched. *)
Theorem non_string_method_skips_validation (self : API) (method params : value) :
  isinstance_str method = false ->
  run (call self method params)
  = ([], SysExit (if check_mode (_module self)
                  then ExitJson [("changed", VBool true)]
                  else FailJson ("Failed to call api: "
                                   ++ str (UnboundLocalError "target_object"))))
  /\ forall t : string,
      "Failed to call api: " ++ str (UnboundLocalError "target_object")
      <> t ++ " is invalid value.".
Proof.
  intros H. split; [now apply call_not_str|].
  intros t E.
  assert (F : endswith ("Failed to call api: " ++ str (UnboundLocalError "target_object"))
                       " is invalid value." = true)
    by (rewrite E; apply endswith_app).
  discriminate F.
Qed.

Lemma non_string_method_skips_validation_witness :
  isinstance_str (VInt 7) = false /\
  run (call (sample_api false) (VInt 7) params_default)
  = ([], SysExit (FailJson "Failed to call api: cannot access local variable 'target_object' where it is not associated with a value")).
Proof.
  split; [reflexivity|].
  apply (non_string_method_skips_validation (sample_api false) (VInt 7) params_default).
  reflexivity.
Defined.

(** ** Further properties of [_is_method], [call] and [main] *)

(** The four ways a run of [call] can go. *)
Lemma call_paths (self : API) (method params : value) :
  let r := run (call self method params) in
  (exists s, method = VStr s /\ Re.search pattern s = None /\
             r = ([], SysExit (FailJson (s ++ " is invalid value.")))) \/
  (check_mode (_module self) = true /\
   (isinstance_str method = false \/
    exists s, method = VStr s /\ Re.search pattern s <> None) /\
   r = ([], SysExit would_change)) \/
  (check_mode (_module self) = false /\ isinstance_str method = false /\
   r = ([], SysExit (failed_to_call (UnboundLocalError "target_object")))) \/
  (check_mode (_module self) = false /\
   exists s a b e, method = VStr s /\ Re.search pattern s <> None /\
                   word a = true /\ word b = true /\ (e = "" \/ e = nl) /\
                   split "." s = [a; b ++ e] /\
                   r = live (_zapi self) a (b ++ e) params).
Proof.
  cbv zeta. destruct (isinstance_str method) eqn:Hm.
  - destruct method as [| | |s| |]; try discriminate.
    destruct (Re.search pattern s) as [i|] eqn:Hs.
    + assert (Hv : Re.search pattern s <> None) by congruence.
      destruct (check_mode (_module self)) eqn:Hc.
      * right; left. repeat split; [right; now exists s|].
        now apply call_accepted_check.
      * right; right; right. split; [reflexivity|].
        destruct (valid_split s Hv) as (a & b & e & Ha & Hb & He & _ & Hsp).
        exists s, a, b, e. repeat split; auto.
        now apply call_accepted_live.
    + left. exists s. repeat split; auto. now apply call_rejected.
  - pose proof (call_not_str self method params Hm) as H.
    destruct (check_mode (_module self)) eqn:Hc.
    + right; left. repeat split; auto.
    + right; right; left. repeat split; auto.
Qed.

(** X1: [_is_method] returns [True], without reporting anything, exactly on
    the strings made of two non-empty runs of lowercase letters joined by one
    dot, optionally followed by a single newline. *)
Theorem is_method_accepts_iff (self : API) (s : string) :
  run (_is_method self s) = ([], Return true) <->
  exists a b, word a = true /\ word b = true /\
              (s = a ++ "." ++ b \/ s = a ++ "." ++ b ++ nl).
Proof.
  rewrite <- search_pattern_iff.
  unfold run, _is_method, bind, fail_json, ret.
  destruct (Re.search pattern s); split; intros H; congruence.
Qed.

(** X2: on a string that holds no newline, validation is exact: the pattern
    accepts it if and only if it has the form [<object>.<action>]. *)
Theorem newline_free_validation_exact (s : string) :
  count_char Re.newline s = 0 ->
  (Re.search pattern s <> None <-> dotted s).
Proof.
  intros Hn. rewrite search_pattern_iff. unfold dotted. split.
  - intros (a & b & Ha & Hb & [Hs|Hs]); [now exists a, b|].
    exfalso. subst s. clear Ha Hb. revert Hn.
    assert (C : forall x y, count_char Re.newline (x ++ y)
                            = count_char Re.newline x + count_char Re.newline y).
    { induction x as [|c x IH]; intros y; simpl; [reflexivity|].
      rewrite IH. lia. }
    rewrite !C. simpl. lia.
  - intros (a & b & Ha & Hb & Hs). exists a, b. auto.
Qed.

Lemma newline_free_validation_exact_witness :
  count_char Re.newline "report.create" = 0 /\
  (Re.search pattern "report.create" <> None <-> dotted "report.create").
Proof.
  split; [reflexivity|].
  apply (newline_free_validation_exact "report.create"). reflexivity.
Defined.

Ltac live_cases self a b params :=
  unfold live;
  destruct (_zapi self a) as [?e|?apireq]; simpl;
  [|destruct (_ b) as [?e|?apimethod]; simpl;
    [|destruct (_ params) as [?e|?res]; simpl]].

(** X4: whatever the method value, the params and the handle, the only
    attribute ever looked up on the remote handle is a non-empty run of
    lowercase letters, and the only attribute ever looked up on a sub-handle
    is such a run, possibly followed by one newline. *)
Theorem resolved_names_are_lowercase (self : API) (method params : value) :
  (forall name r,
      In (Ev (GetObject name) r) (fst (run (call self method params))) ->
      word name = true) /\
  (forall name r,
      In (Ev (GetMethod name) r) (fst (run (call self method params))) ->
      exists w, word w = true /\ (name = w \/ name = w ++ nl)).
Proof.
  assert (N : forall w e, (e = "" \/ e = nl) -> w ++ e = w \/ w ++ e = w ++ nl).
  { intros w e [->| ->]; [left; apply append_nil_r|now right]. }
  destruct (call_paths self method params)
    as [(s & _ & _ & H)|[(_ & _ & H)|[(_ & _ & H)|(_ & s & a & b & e & _ & _ & Ha & Hb & He & _ & H)]]];
    rewrite H; try (split; intros name r []).
  live_cases self a (b ++ e) params; split; intros name r Hin;
    repeat (destruct Hin as [Hin|Hin]; [inversion Hin; subst|]);
    try destruct Hin; auto; exists b; auto.
Qed.

(** X5: the steps a run takes on the handle are always an initial part of:
    resolve the object, resolve the method, invoke with [params]; and only
    the last step taken can have raised. *)
Theorem steps_in_order (self : API) (method params : value) :
  exists a b rest,
    (map ev_req (fst (run (call self method params))) ++ rest
     = [GetObject a; GetMethod b; Invoke params])%list /\
    forall pre ev post,
      fst (run (call self method params)) = (pre ++ ev :: post)%list ->
      post <> [] -> ev_raised ev = None.
Proof.
  assert (E : forall (l : list event), (forall pre ev post,
                l = (pre ++ ev :: post)%list -> post <> [] -> False) ->
              forall pre ev post, l = (pre ++ ev :: post)%list ->
                                  post <> [] -> ev_raised ev = None).
  { intros l H pre ev post H1 H2. destruct (H pre ev post H1 H2). }
  destruct (call_paths self method params)
    as [(s & _ & _ & H)|[(_ & _ & H)|[(_ & _ & H)|(_ & s & a & b & e & _ & _ & _ & _ & _ & _ & H)]]];
    rewrite H.
  1-3: exists "", "", [GetObject ""; GetMethod ""; Invoke params];
       split; [reflexivity|]; intros [|? ?] ev post Hl; discriminate Hl.
  exists a, (b ++ e).
  live_cases self a (b ++ e) params.
  - exists [GetMethod (b ++ e); Invoke params]. split; [reflexivity|].
    intros [|x [|y pre]] ev post Hl Hp; inversion Hl; subst; congruence.
  - exists [Invoke params]. split; [reflexivity|].
    intros [|x [|y [|z pre]]] ev post Hl Hp; inversion Hl; subst;
      try reflexivity; congruence.
  - exists []. split; [reflexivity|].
    intros [|x [|y [|z [|u pre]]]] ev post Hl Hp; inversion Hl; subst;
      try reflexivity; congruence.
  - exists []. split; [reflexivity|].
    intros [|x [|y [|z [|u pre]]]] ev post Hl Hp; inversion Hl; subst;
      try reflexivity; congruence.
Qed.

(** X6: in check mode [call] never touches the remote handle, whatever the
    method value (a string or not, accepted or not), and its report is then
    either [changed: true] or the invalid-value failure. *)
Theorem check_mode_leaves_handle_untouched (self : API) (method params : value) :
  check_mode (_module self) = true ->
  fst (run (call self method params)) = [] /\
  (snd (run (call self method params))
   = SysExit (ExitJson [("changed", VBool true)]) \/
   exists s, method = VStr s /\
             snd (run (call self method params))
             = SysExit (FailJson (s ++ " is invalid value."))).
Proof.
  intros Hc.
  destruct (call_paths self method params)
    as [(s & Hm & _ & H)|[(_ & _ & H)|[(Hf & _)|(Hf & _)]]];
    try congruence; rewrite H; simpl; split; auto.
  right. now exists s.
Qed.

Lemma check_mode_leaves_handle_untouched_witness :
  check_mode (_module (sample_api true)) = true /\
  fst (run (call (sample_api true) (VList []) filter_x)) = [].
Proof.
  split; [reflexivity|].
  apply (check_mode_leaves_handle_untouched (sample_api true) (VList []) filter_x).
  reflexivity.
Defined.

(** X8: for a string method, a run of [call] that ends in [fail_json] carries
    one of two messages only: the invalid-value message, when the pattern
    rejects the string (the handle is then untouched); or
    "Failed to call api: " followed by the text of an exception that the
    last step on the handle raised, with check mode off.  No failure of a
    string method comes from the split or from an unbound local name. *)
Theorem failure_report_origin
        (self : API) (s : string) (params : value) (msg : string) :
  snd (run (call self (VStr s) params)) = SysExit (FailJson msg) ->
  (Re.search pattern s = None /\ msg = s ++ " is invalid value." /\
   fst (run (call self (VStr s) params)) = []) \/
  (Re.search pattern s <> None /\ check_mode (_module self) = false /\
   exists pre req e,
     fst (run (call self (VStr s) params)) = (pre ++ [Ev req (Some e)])%list /\
     msg = "Failed to call api: " ++ str e).
Proof.
  destruct (call_paths self (VStr s) params)
    as [(s' & Hm & Hs & H)|[(_ & _ & H)|[(_ & Hf & _)|(Hc & s' & a & b & e & Hm & Hs & _ & _ & _ & _ & H)]]];
    try discriminate; rewrite H; simpl; try discriminate; inversion Hm; subst s'.
  - intros E. inversion E. left. auto.
  - intros E. right. split; [assumption|]. split; [assumption|]. revert E.
    live_cases self a (b ++ e) params; unfold fault;
      try match goal with |- context [isinstance_Exception ?x] =>
            destruct (isinstance_Exception x) end;
      intros E; inversion E.
    + now exists [], (GetObject a), e0.
    + now exists [Ev (GetObject a) None], (GetMethod (b ++ e)), e0.
    + now exists [Ev (GetObject a) None; Ev (GetMethod (b ++ e)) None],
        (Invoke params), e0.
Qed.

Lemma failure_report_origin_witness :
  (Re.search pattern "host.get" = None /\
   "Failed to call api: no attribute 'host'" = "host.get" ++ " is invalid value." /\
   fst (run (call (sample_api false) (VStr "host.get") params_default)) = []) \/
  (Re.search pattern "host.get" <> None /\
   check_mode (_module (sample_api false)) = false /\
   exists pre req e,
     fst (run (call (sample_api false) (VStr "host.get") params_default))
     = (pre ++ [Ev req (Some e)])%list /\
     "Failed to call api: no attribute 'host'" = "Failed to call api: " ++ str e).
Proof.
  apply (failure_report_origin (sample_api false) "host.get" params_default
           "Failed to call api: no attribute 'host'").
  reflexivity.
Defined.

(** X9: the remote operation is invoked only with check mode off and only
    for a string method that the pattern accepts: an invalid or non-string
    method, and any run in check mode, never reaches the invocation. *)
Theorem invocation_requires_accepted_method
        (self : API) (method params p : value) (r : option exn) :
  In (Ev (Invoke p) r) (fst (run (call self method params))) ->
  check_mode (_module self) = false /\
  exists s, method = VStr s /\ Re.search pattern s <> None.
Proof.
  destruct (call_paths self method params)
    as [(s & _ & _ & H)|[(_ & _ & H)|[(_ & _ & H)|(Hc & s & a & b & e & Hm & Hs & _ & _ & _ & _ & H)]]];
    rewrite H; simpl; try (intros []).
  intros _. split; [assumption|]. now exists s.
Qed.

Lemma invocation_requires_accepted_method_witness :
  In (Ev (Invoke filter_x) None)
     (fst (run (call (sample_api false) (VStr "dashboard.get") filter_x))) /\
  check_mode (_module (sample_api false)) = false /\
  exists s, VStr "dashboard.get" = VStr s /\ Re.search pattern s <> None.
Proof.
  split; [right; right; left; reflexivity|].
  apply (invocation_requires_accepted_method (sample_api false)
           (VStr "dashboard.get") filter_x filter_x None).
  right; right; left; reflexivity.
Defined.

(** ** More on what a run resolves and reports *)

Lemma split_nonempty (sep : ascii) (s : string) : split sep s <> [].
Proof.
  destruct s as [|c s]; simpl; [discriminate|].
  destruct (Ascii.eqb c sep); [discriminate|].
  destruct (split sep s); discriminate.
Qed.

Lemma split_one (sep : ascii) (s b : string) : split sep s = [b] -> s = b.
Proof.
  revert b. induction s as [|c s IH]; intros b; simpl.
  - now intros [= <-].
  - destruct (Ascii.eqb c sep).
    + intros [= _ H]. now destruct (split_nonempty sep s).
    + destruct (split sep s) as [|h t] eqn:E; [now destruct (split_nonempty sep s)|].
      intros [= <- ->]. now rewrite (IH h eq_refl).
Qed.

Lemma split_two (sep : ascii) (s a b : string) :
  split sep s = [a; b] -> s = a ++ String sep b.
Proof.
  revert a. induction s as [|c s IH]; intros a; simpl; [discriminate|].
  destruct (Ascii.eqb_spec c sep) as [->|_].
  - intros [= <- H]. simpl. now rewrite (split_one _ _ _ H).
  - destruct (split sep s) as [|h t] eqn:E; [discriminate|].
    intros [= <- ->]. simpl. now rewrite (IH h eq_refl).
Qed.

Lemma no_dot_count (s : string) : all_sat not_dot s = true -> count_char "." s = 0.
Proof.
  induction s as [|c s IH]; simpl; [reflexivity|].
  intros H. apply andb_true_iff in H as [Hc H]. unfold not_dot in Hc.
  apply negb_true_iff in Hc. now rewrite Hc, IH.
Qed.

(** X3: the names a run of [call] resolves are the two sides of the only dot
    of the method string: an object name [a] looked up on the handle comes
    with a dot-free [b] such that the string is [a], a dot, [b], and [b] is
    the only method name the run looks up. *)
Theorem resolved_names_recompose
        (self : API) (s : string) (params : value) (a : string) (r : option exn) :
  In (Ev (GetObject a) r) (fst (run (call self (VStr s) params))) ->
  exists b,
    s = a ++ "." ++ b /\ count_char "." a = 0 /\ count_char "." b = 0 /\
    forall b' r',
      In (Ev (GetMethod b') r') (fst (run (call self (VStr s) params))) -> b' = b.
Proof.
  destruct (call_paths self (VStr s) params)
    as [(s' & _ & _ & H)|[(_ & _ & H)|[(_ & _ & H)|(_ & s' & a0 & b0 & e & Hm & _ & Ha & Hb & He & Hsp & H)]]];
    rewrite H; try (intros []).
  inversion Hm; subst s'. clear Hm.
  assert (Hna : count_char "." a0 = 0).
  { apply no_dot_count, all_lower_not_dot. now apply word_spec in Ha. }
  assert (Hnb : count_char "." (b0 ++ e) = 0).
  { apply no_dot_count. rewrite all_sat_app.
    apply word_spec in Hb as [_ Hb]. rewrite (all_lower_not_dot _ Hb).
    destruct He as [->| ->]; reflexivity. }
  pose proof (split_two _ _ _ _ Hsp) as Hs.
  assert (G : a = a0 -> exists b : string,
               s = a ++ "." ++ b /\ count_char "." a = 0 /\ count_char "." b = 0 /\
               forall b' r', In (Ev (GetMethod b') r')
                                (fst (live (_zapi self) a0 (b0 ++ e) params)) ->
                             b' = b).
  { intros ->. exists (b0 ++ e). repeat split; auto.
    intros b' r'. live_cases self a0 (b0 ++ e) params; intros Hin;
      repeat (destruct Hin as [Hin|Hin]; [inversion Hin; subst|]);
      try destruct Hin; auto. }
  intros Hin. apply G. revert Hin.
  live_cases self a0 (b0 ++ e) params; intros Hin;
    repeat (destruct Hin as [Hin|Hin]; [inversion Hin; subst|]);
    try destruct Hin; auto.
Qed.

Lemma resolved_names_recompose_witness :
  In (Ev (GetObject "dashboard") None)
     (fst (run (call (sample_api false) (VStr "dashboard.get") filter_x))) /\
  exists b,
    "dashboard.get" = "dashboard" ++ "." ++ b /\
    count_char "." "dashboard" = 0 /\ count_char "." b = 0 /\
    forall b' r',
      In (Ev (GetMethod b') r')
         (fst (run (call (sample_api false) (VStr "dashboard.get") filter_x))) ->
      b' = b.
Proof.
  split; [left; reflexivity|].
  apply (resolved_names_recompose (sample_api false) "dashboard.get" filter_x
           "dashboard" None).
  left. reflexivity.
Defined.

(** X7: a run of [call] that ends in [exit_json] always reports
    [changed: true], and it does so in one of two ways only: in check mode,
    with nothing else in the report and the handle untouched; or with check
    mode off, for a string method whose two parts resolved on the handle,
    the value reported under [result] being the one the resolved operation
    returned on [params] in the single invocation of the run. *)
Theorem success_report_origin
        (self : API) (method params : value) (kwargs : list (string * value)) :
  snd (run (call self method params)) = SysExit (ExitJson kwargs) ->
  dict_get kwargs "changed" = Some (VBool true) /\
  ((check_mode (_module self) = true /\
    kwargs = [("changed", VBool true)] /\
    fst (run (call self method params)) = []) \/
   (check_mode (_module self) = false /\
    exists s a b apireq apimethod res,
      method = VStr s /\ split "." s = [a; b] /\
      _zapi self a = inr apireq /\ apireq b = inr apimethod /\
      apimethod params = inr res /\
      kwargs = [("changed", VBool true); ("result", res)] /\
      fst (run (call self method params))
      = [Ev (GetObject a) None; Ev (GetMethod b) None; Ev (Invoke params) None])).
Proof.
  destruct (call_paths self method params)
    as [(s & _ & _ & H)|[(Hc & _ & H)|[(_ & _ & H)|(Hc & s & a & b & e & Hm & _ & _ & _ & _ & Hsp & H)]]];
    rewrite H; simpl; try discriminate.
  - intros E. inversion E; subst. split; [reflexivity|]. left. auto.
  - unfold live, fault.
    destruct (_zapi self a) as [e1|apireq] eqn:H1; simpl;
      [destruct (isinstance_Exception e1); discriminate|].
    destruct (apireq (b ++ e)) as [e2|apimethod] eqn:H2; simpl;
      [destruct (isinstance_Exception e2); discriminate|].
    destruct (apimethod params) as [e3|res] eqn:H3; simpl;
      [destruct (isinstance_Exception e3); discriminate|].
    intros E. inversion E; subst. split; [reflexivity|]. right.
    split; [assumption|].
    exists s, a, (b ++ e), apireq, apimethod, res. repeat split; auto.
Qed.

Lemma success_report_origin_witness :
  dict_get [("changed", VBool true); ("result", dashboards)] "changed"
  = Some (VBool true) /\
  ((check_mode (_module (sample_api false)) = true /\
    [("changed", VBool true); ("result", dashboards)] = [("changed", VBool true)] /\
    fst (run (call (sample_api false) (VStr "dashboard.get") filter_x)) = []) \/
   (check_mode (_module (sample_api false)) = false /\
    exists s a b apireq apimethod res,
      VStr "dashboard.get" = VStr s /\ split "." s = [a; b] /\
      _zapi (sample_api false) a = inr apireq /\ apireq b = inr apimethod /\
      apimethod filter_x = inr res /\
      [("changed", VBool true); ("result", dashboards)]
      = [("changed", VBool true); ("result", res)] /\
      fst (run (call (sample_api false) (VStr "dashboard.get") filter_x))
      = [Ev (GetObject a) None; Ev (GetMethod b) None; Ev (Invoke filter_x) None])).
Proof.
  apply (success_report_origin (sample_api false) (VStr "dashboard.get") filter_x
           [("changed", VBool true); ("result", dashboards)]).
  reflexivity.
Defined.

(** X15: a run of [call] never returns normally and never lets an instance
    of [Exception] out: it ends in a report, or, with check mode off, in an
    exception that is not an [Exception] and that the last step taken on the
    handle raised. *)
Theorem call_ends_in_report_or_interrupt (self : API) (method params : value) :
  (exists rep : report, snd (run (call self method params)) = SysExit rep) \/
  (check_mode (_module self) = false /\
   exists pre req e,
     fst (run (call self method params)) = (pre ++ [Ev req (Some e)])%list /\
     isinstance_Exception e = false /\
     snd (run (call self method params)) = Raise e).
Proof.
  destruct (call_paths self method params)
    as [(s & _ & _ & H)|[(_ & _ & H)|[(_ & _ & H)|(Hc & s & a & b & e & _ & _ & _ & _ & _ & _ & H)]]];
    rewrite H; simpl; try (left; now eexists).
  unfold live, fault.
  destruct (_zapi self a) as [e1|apireq]; simpl.
  { destruct (isinstance_Exception e1) eqn:E; [left; now eexists|right].
    split; [assumption|]. now exists [], (GetObject a), e1. }
  destruct (apireq (b ++ e)) as [e2|apimethod]; simpl.
  { destruct (isinstance_Exception e2) eqn:E; [left; now eexists|right].
    split; [assumption|].
    now exists [Ev (GetObject a) None], (GetMethod (b ++ e)), e2. }
  destruct (apimethod params) as [e3|res]; simpl; [|left; now eexists].
  destruct (isinstance_Exception e3) eqn:E; [left; now eexists|right].
  split; [assumption|].
  now exists [Ev (GetObject a) None; Ev (GetMethod (b ++ e)) None],
    (Invoke params), e3.
Qed.
